(** * conf.py: the Sphinx configuration module of blog.abyx.dev

    [src/conf.py] is a Python module made of eighteen top-level assignment
    statements [name = <display>], where every right-hand side is a string
    literal, a list display, or a dict display holding a tuple display and
    [None].  Sphinx runs the module with [exec(code, namespace)] on a
    namespace it has prepared, and then reads the bindings back.  Before
    the first statement runs, [exec] itself binds [__builtins__] in that
    namespace when the caller has not.

    The embedding below follows that reading:
    - Python objects are the inductive type [value];
    - the module globals are a finite map from names to values;
    - an expression denotes a function from the globals to a result that is
      either a value or a raised exception;
    - an assignment statement is a target name with such an expression, and
      a module is the list of its statements, run in order by explicit
      state passing, after [exec] has prepared the globals. *)

From Stdlib Require Import Ascii String.
From stdpp Require Import gmap strings list.

Open Scope string_scope.

Set Warnings "-register-all".

(** ** Python objects *)

Module Py.

(** The objects [conf.py] builds: [None], [str], [list], [tuple] and
    [dict].  A dict keeps its items in insertion order, as CPython does.
    [VBuiltins] is the one object of a run that the module does not build:
    the dictionary of the built-in module, which [exec] binds to
    [__builtins__]; what it holds is not modelled. *)
Inductive value : Type :=
  | VNone
  | VStr (s : string)
  | VList (items : list value)
  | VTuple (items : list value)
  | VDict (items : list (value * value))
  | VBuiltins.

(** Exceptions an expression of this fragment can raise. *)
Inductive exn : Type :=
  | TypeError (msg : string)
  | NameError (name : string).

(** Outcome of evaluating a piece of code. *)
Inductive res (A : Type) : Type :=
  | Ok (a : A)
  | Raise (e : exn).
Arguments Ok {A} a.
Arguments Raise {A} e.

(** [res] is an error monad: [x ← r; k] runs [k] on the value of [r] and
    passes an exception of [r] on. *)
#[global] Instance res_ret : MRet res := fun A a => Ok a.
#[global] Instance res_bind : MBind res := fun A B k r =>
  match r with
  | Ok a => k a
  | Raise e => Raise e
  end.
#[global] Instance res_fmap : FMap res := fun A B f r =>
  match r with
  | Ok a => Ok (f a)
  | Raise e => Raise e
  end.

(** [hash(v)] succeeds on [None], on a [str], and on a tuple of hashable
    objects; lists and dicts, the builtins dictionary among them, are
    unhashable. *)
Fixpoint hashable (v : value) : bool :=
  match v with
  | VNone => true
  | VStr _ => true
  | VTuple items => forallb hashable items
  | VList _ => false
  | VDict _ => false
  | VBuiltins => false
  end.

(** [k1 == k2] on dict keys.  Keys are hashable objects, on which Python's
    equality is structural; any other pair of objects is never compared by
    [dict_setitem] below and is reported as different. *)
Fixpoint key_eqb (k1 k2 : value) : bool :=
  match k1, k2 with
  | VNone, VNone => true
  | VStr s1, VStr s2 => bool_decide (s1 = s2)
  | VTuple l1, VTuple l2 =>
      (fix all2 (a b : list value) {struct a} : bool :=
         match a, b with
         | [], [] => true
         | x :: a', y :: b' => key_eqb x y && all2 a' b'
         | _, _ => false
         end) l1 l2
  | _, _ => false
  end.

(** [d[k] = v] on the items of a dict: an existing key keeps its position
    and takes the new value, a new key goes last. *)
Fixpoint dict_setitem (items : list (value * value)) (k v : value)
  : list (value * value) :=
  match items with
  | [] => [(k, v)]
  | (k', v') :: rest =>
      if key_eqb k' k then (k', v) :: rest
      else (k', v') :: dict_setitem rest k v
  end.

(** [d[k]], as an option. *)
Fixpoint dict_getitem (items : list (value * value)) (k : value)
  : option value :=
  match items with
  | [] => None
  | (k', v') :: rest =>
      if key_eqb k' k then Some v' else dict_getitem rest k
  end.

(** ** Globals and expressions *)

(** The module namespace: the dict handed to [exec]. *)
Abbreviation namespace := (gmap string value).

(** An expression is evaluated in the globals and yields a value or raises. *)
Definition expr : Type := namespace -> res value.

(** A string literal and the constant [None]: they read nothing. *)
Definition e_str (s : string) : expr := fun _ => Ok (VStr s).
Definition e_none : expr := fun _ => Ok VNone.

(** A name is looked up in the globals; an unbound one raises [NameError].
    [conf.py] has no such expression; it is the way an expression of the
    fragment would read its environment. *)
Definition e_name (x : string) : expr := fun ns =>
  match ns !! x with
  | Some v => Ok v
  | None => Raise (NameError x)
  end.

(** Operands of a display are evaluated left to right; the first
    exception stops the evaluation. *)
Fixpoint eval_all (es : list expr) (ns : namespace) : res (list value) :=
  match es with
  | [] => Ok []
  | e :: es' =>
      v ← e ns;
      vs ← eval_all es' ns;
      Ok (v :: vs)
  end.

(** [[e1, ..., en]] and [(e1, ..., en)]. *)
Definition e_list (es : list expr) : expr := fun ns =>
  VList <$> eval_all es ns.
Definition e_tuple (es : list expr) : expr := fun ns =>
  VTuple <$> eval_all es ns.

(** [{k1: v1, ..., kn: vn}]: each key then its value, left to right, and
    the items are stored one by one; an unhashable key raises
    [TypeError]. *)
Fixpoint build_map (kvs : list (expr * expr)) (ns : namespace)
  (acc : list (value * value)) : res (list (value * value)) :=
  match kvs with
  | [] => Ok acc
  | (ek, ev) :: kvs' =>
      k ← ek ns;
      v ← ev ns;
      if hashable k then build_map kvs' ns (dict_setitem acc k v)
      else Raise (TypeError "unhashable type")
  end.

Definition e_dict (kvs : list (expr * expr)) : expr := fun ns =>
  VDict <$> build_map kvs ns [].

(** ** Statements and modules *)

(** The assignment statement [target = rhs]. *)
Record assign : Type := Assign { target : string; rhs : expr }.

Notation "x ::= e" := (Assign x e) (at level 70, no associativity).

(** Running one assignment: evaluate the right-hand side in the current
    globals, then bind the target. *)
Definition exec_assign (s : assign) (ns : namespace) : res namespace :=
  v ← rhs s ns;
  Ok (<[target s := v]> ns).

(** Running the statements of a module body in order; an exception leaves
    the body at once. *)
Fixpoint exec_body (body : list assign) (ns : namespace) : res namespace :=
  match body with
  | [] => Ok ns
  | s :: body' =>
      ns' ← exec_assign s ns;
      exec_body body' ns'
  end.

(** What [exec] does to the globals before the code runs: when they hold
    no [__builtins__], it binds that name to the builtins dictionary; a
    binding of the caller is kept. *)
Definition exec_globals (g : namespace) : namespace :=
  match g !! "__builtins__" with
  | Some _ => g
  | None => <["__builtins__" := VBuiltins]> g
  end.

(** [exec(code, g)] for the code of a module body: the globals are
    prepared, then the statements run in them. *)
Definition exec_module (body : list assign) (g : namespace) : res namespace :=
  exec_body body (exec_globals g).

(** The names a module body assigns, in statement order. *)
Definition targets (body : list assign) : list string := map target body.

(** What a finished run bound to a name. *)
Definition binding (r : res namespace) (x : string) : option value :=
  match r with
  | Ok ns => ns !! x
  | Raise _ => None
  end.

End Py.

Import Py.

(** ** The module [conf.py] *)

(** The two triple-quoted literals of the module, line breaks included. *)
Definition rst_prolog_literal : string := "
.. role:: python(code)
    :language: python
    :class: highlight
".

Definition rst_epilog_literal : string := "

----

*If you have something to say about this page,
feel free to* `let me know <https://abyx.dev/contact>`_!
".

(** The body of [conf.py], one entry per statement, in file order. *)
Definition conf : list assign :=
  [ (* -- Project information -- *)
    "project" ::= e_str "AbyxDev's Blog";
    "copyright" ::= e_str "2022, AbyxDev";
    "author" ::= e_str "AbyxDev";
    (* -- General configuration -- *)
    "extensions" ::= e_list
      [ e_str "sphinx.ext.intersphinx";
        e_str "sphinxext.opengraph" ];
    "intersphinx_mapping" ::= e_dict
      [ (e_str "python", e_tuple [e_str "https://docs.python.org/3"; e_none]) ];
    "templates_path" ::= e_list [e_str "_templates"];
    "exclude_patterns" ::= e_list
      [e_str "_build"; e_str "Thumbs.db"; e_str ".DS_Store"; e_str "README"];
    "rst_prolog" ::= e_str rst_prolog_literal;
    "rst_epilog" ::= e_str rst_epilog_literal;
    (* -- Options for HTML output -- *)
    "html_theme" ::= e_str "furo";
    "html_static_path" ::= e_list [e_str "_static"];
    "html_title" ::= e_str "AbyxDev's Blog";
    "html_favicon" ::= e_str "_static/favicon.ico";
    (* -- Options for OpenGraph meta tags -- *)
    "ogp_site_url" ::= e_str "https://blog.abyx.dev";
    "ogp_site_name" ::= e_str "AbyxDev's Blog";
    "ogp_image" ::= e_str "_static/Abyx.png";
    "ogp_image_alt" ::= e_str "AbyxDev";
    "ogp_type" ::= e_str "article" ].

(** Evaluating the module on the globals [g] that the caller prepared:
    [exec(code, g)] on the code of [conf.py]. *)
Definition eval_conf (g : namespace) : res namespace := exec_module conf g.


(** ** Vocabulary of the properties *)

(** An expression that yields the same outcome in all globals. *)
Definition reads_nothing (e : expr) : Prop :=
  ∀ ns1 ns2 : namespace, e ns1 = e ns2.

(** A module body whose right-hand sides all read nothing. *)
Definition closed_module (body : list assign) : Prop :=
  Forall (λ s, reads_nothing (rhs s)) body.

(** [same_outcome body g1 g2 r1 r2]: the runs [r1] from [g1] and [r2] from
    [g2] both finish or both raise the same exception, and when they finish
    they agree on every name the body assigns and on every name the
    starting globals agreed on. *)
Definition same_outcome (body : list assign) (g1 g2 : namespace)
  (r1 r2 : res namespace) : Prop :=
  match r1, r2 with
  | Ok n1, Ok n2 =>
      ∀ x, x ∈ targets body ∨ g1 !! x = g2 !! x → n1 !! x = n2 !! x
  | Raise e1, Raise e2 => e1 = e2
  | _, _ => False
  end.

(** Two modules that are not [conf.py], to compare it with: one whose dict
    display has a list as key, one that copies a name of its globals. *)
Definition unhashable_key_module : list assign :=
  [ "mapping" ::= e_dict [ (e_list [e_str "python"], e_none) ] ].

Definition copying_module : list assign :=
  [ "project" ::= e_name "tags" ].

(** Line feed, and a text given by its lines, each ended by a line feed. *)
Definition LF : string := String "010"%char "".

Fixpoint unlines (ls : list string) : string :=
  match ls with
  | [] => ""
  | l :: ls' => l +:+ LF +:+ unlines ls'
  end.

(** [contains needle hay]: [needle] occurs somewhere in [hay]. *)
Fixpoint contains (needle hay : string) : bool :=
  String.prefix needle hay ||
  match hay with
  | EmptyString => false
  | String _ hay' => contains needle hay'
  end.

(** The keys of the configuration that name an asset file. *)
Definition asset_keys : list string := ["html_favicon"; "ogp_image"].

(** [under_static_dir ns key]: [html_static_path] lists a single directory
    [d], and [key] is bound to a string that starts with [d] and a slash. *)
Definition under_static_dir (ns : namespace) (key : string) : bool :=
  match ns !! "html_static_path", ns !! key with
  | Some (VList [VStr d]), Some (VStr p) => String.prefix (d +:+ "/") p
  | _, _ => false
  end.

(** ** Running modules in general *)

Section Modules.

Implicit Types (body : list assign) (g ns : namespace) (x : string).

Lemma exec_body_cons s body g :
  exec_body (s :: body) g = exec_assign s g ≫= exec_body body.
Proof. reflexivity. Qed.

(** A run leaves every name that the body does not assign as it was. *)
Lemma exec_body_frame body : ∀ g ns x,
  exec_body body g = Ok ns → x ∉ targets body → ns !! x = g !! x.
Proof.
  induction body as [|s body IH]; intros g ns x Hrun Hx; cbn in *.
  - by injection Hrun as <-.
  - apply not_elem_of_cons in Hx as [Hne Hx].
    unfold exec_assign in Hrun.
    destruct (rhs s g) as [v|e]; cbn in Hrun; [|discriminate].
    rewrite (IH _ _ _ Hrun Hx). by apply lookup_insert_ne.
Qed.

(** Every name the body assigns is bound when the run is over. *)
Lemma exec_body_binds body : ∀ g ns x,
  exec_body body g = Ok ns → x ∈ targets body ∨ is_Some (g !! x) →
  is_Some (ns !! x).
Proof.
  induction body as [|s body IH]; intros g ns x Hrun Hx; cbn in *.
  - injection Hrun as <-. destruct Hx as [Hx|Hx]; [|done].
    by apply elem_of_nil in Hx.
  - unfold exec_assign in Hrun.
    destruct (rhs s g) as [v|e]; cbn in Hrun; [|discriminate].
    apply (IH _ _ _ Hrun).
    destruct Hx as [Hx|Hx].
    + apply elem_of_cons in Hx as [->|Hx]; [right|by left].
      rewrite lookup_insert_eq. by eexists.
    + right. destruct (decide (target s = x)) as [->|Hne].
      * rewrite lookup_insert_eq. by eexists.
      * by rewrite lookup_insert_ne.
Qed.

(** Two runs of a closed module end alike, whatever globals they start
    from. *)
Lemma closed_module_same_outcome body :
  closed_module body →
  ∀ g1 g2, same_outcome body g1 g2 (exec_body body g1) (exec_body body g2).
Proof.
  induction 1 as [|s body Hs _ IH]; intros g1 g2.
  - cbn. intros x [Hx|Hx]; [by apply elem_of_nil in Hx|done].
  - rewrite !exec_body_cons. unfold exec_assign.
    rewrite (Hs g1 g2). destruct (rhs s g2) as [v|e]; cbn; [|done].
    specialize (IH (<[target s:=v]> g1) (<[target s:=v]> g2)).
    unfold same_outcome in *.
    destruct (exec_body body _) as [n1|e1], (exec_body body _) as [n2|e2];
      try done.
    intros x Hx. apply IH.
    destruct (decide (target s = x)) as [->|Hne].
    + right. by rewrite !lookup_insert_eq.
    + destruct Hx as [Hx|Hx].
      * left. apply elem_of_cons in Hx as [->|Hx]; done.
      * right. by rewrite !lookup_insert_ne.
Qed.

(** The literals and displays of closed operands read nothing. *)
Lemma e_str_closed s : reads_nothing (e_str s).
Proof. done. Qed.

Lemma e_none_closed : reads_nothing e_none.
Proof. done. Qed.

Lemma eval_all_closed es :
  Forall reads_nothing es → ∀ ns1 ns2, eval_all es ns1 = eval_all es ns2.
Proof.
  induction 1 as [|e es He _ IH]; intros ns1 ns2; cbn; [done|].
  by rewrite (He ns1 ns2), (IH ns1 ns2).
Qed.

Lemma e_list_closed es : Forall reads_nothing es → reads_nothing (e_list es).
Proof. intros H ns1 ns2. unfold e_list. by rewrite (eval_all_closed _ H ns1 ns2). Qed.

Lemma e_tuple_closed es : Forall reads_nothing es → reads_nothing (e_tuple es).
Proof. intros H ns1 ns2. unfold e_tuple. by rewrite (eval_all_closed _ H ns1 ns2). Qed.

Lemma build_map_closed kvs :
  Forall (λ kv, reads_nothing kv.1 ∧ reads_nothing kv.2) kvs →
  ∀ ns1 ns2 acc, build_map kvs ns1 acc = build_map kvs ns2 acc.
Proof.
  induction 1 as [|[ek ev] kvs [Hk Hv] _ IH]; intros ns1 ns2 acc; cbn; [done|].
  cbn in Hk, Hv. rewrite (Hk ns1 ns2), (Hv ns1 ns2).
  destruct (ek ns2) as [k|]; cbn; [|done].
  destruct (ev ns2) as [v|]; cbn; [|done].
  destruct (hashable k); [apply IH|done].
Qed.

Lemma e_dict_closed kvs :
  Forall (λ kv, reads_nothing kv.1 ∧ reads_nothing kv.2) kvs →
  reads_nothing (e_dict kvs).
Proof. intros H ns1 ns2. unfold e_dict. by rewrite (build_map_closed _ H ns1 ns2). Qed.

(** The globals as [exec] prepares them: [__builtins__] is bound, to the
    caller's object if there was one, and no other name changes. *)
Lemma exec_globals_builtins g :
  exec_globals g !! "__builtins__"
  = Some (default VBuiltins (g !! "__builtins__")).
Proof.
  unfold exec_globals. destruct (g !! "__builtins__") as [v|] eqn:E; cbn.
  - done.
  - by rewrite lookup_insert_eq.
Qed.

Lemma exec_globals_other g x :
  x ≠ "__builtins__" → exec_globals g !! x = g !! x.
Proof.
  intros Hx. unfold exec_globals.
  destruct (g !! "__builtins__"); [done|]. by rewrite lookup_insert_ne.
Qed.

Lemma exec_globals_prepared g :
  is_Some (g !! "__builtins__") → exec_globals g = g.
Proof. intros [v Hv]. unfold exec_globals. by rewrite Hv. Qed.

Lemma exec_globals_is_Some g x :
  is_Some (exec_globals g !! x) ↔ x = "__builtins__" ∨ is_Some (g !! x).
Proof.
  destruct (decide (x = "__builtins__")) as [->|Hx].
  - rewrite exec_globals_builtins. split; [by left|by eexists].
  - rewrite (exec_globals_other g x Hx). split; [by right|by intros [?|?]].
Qed.

End Modules.

Create HintDb closed.
#[local] Hint Resolve e_str_closed e_none_closed e_list_closed e_tuple_closed
  e_dict_closed : closed.
#[local] Hint Extern 1 (_ ∧ _) => split : closed.
#[local] Hint Constructors Forall : closed.

(** ** The fragment can raise and can read its globals *)

Example unhashable_key_raises (g : namespace) :
  exec_module unhashable_key_module g = Raise (TypeError "unhashable type").
Proof. reflexivity. Qed.

Example unbound_name_raises :
  exec_module copying_module ∅ = Raise (NameError "tags").
Proof. reflexivity. Qed.

Example copying_module_depends_on_globals :
  binding (exec_module copying_module {["tags" := VStr "a"]}) "project"
  ≠ binding (exec_module copying_module {["tags" := VStr "b"]}) "project".
Proof. vm_compute. discriminate. Qed.

Example later_item_replaces_earlier :
  e_dict [ (e_str "k", e_str "old"); (e_str "j", e_none);
           (e_str "k", e_str "new") ] ∅
  = Ok (VDict [ (VStr "k", VStr "new"); (VStr "j", VNone) ]).
Proof. reflexivity. Qed.

(** [exec] on globals without [__builtins__] binds it: the run of conf.py
    on the empty globals ends with nineteen names, on globals that hold
    [__file__] with twenty, and on globals that already hold
    [__builtins__] the caller's object stays. *)
Example eval_conf_sizes :
  size <$> eval_conf ∅ = Ok 19
  ∧ size <$> eval_conf {["__file__" := VStr "conf.py"]} = Ok 20
  ∧ binding (eval_conf ∅) "__builtins__" = Some VBuiltins
  ∧ binding (eval_conf {["__builtins__" := VDict []]}) "__builtins__"
    = Some (VDict [])
  ∧ size <$> eval_conf {["__builtins__" := VDict []]} = Ok 19.
Proof. split_and!; vm_compute; reflexivity. Qed.

(** The two triple-quoted literals have the lengths of the Python strings. *)
Example literal_lengths :
  String.length rst_prolog_literal = 68 ∧ String.length rst_epilog_literal = 112.
Proof. split; reflexivity. Qed.

(** ** Facts about [conf.py] shared by the properties below *)

Lemma conf_closed : closed_module conf.
Proof. unfold closed_module, conf. repeat constructor; cbn; auto 10 with closed. Qed.

(** The run on the empty globals, by evaluation. *)
Lemma eval_conf_empty_ok : ∃ ns, eval_conf ∅ = Ok ns.
Proof. unfold eval_conf. vm_compute. by eexists. Qed.

(** Every run finishes; on the names of the module it ends like the run on
    the empty globals, and it leaves the other names as [exec] prepared
    them. *)
Lemma eval_conf_run (g : namespace) :
  ∃ ns, eval_conf g = Ok ns
    ∧ (∀ x, x ∈ targets conf → ns !! x = binding (eval_conf ∅) x)
    ∧ (∀ x, x ∉ targets conf → ns !! x = exec_globals g !! x).
Proof.
  pose proof (closed_module_same_outcome conf conf_closed
                (exec_globals g) (exec_globals ∅)) as H.
  destruct eval_conf_empty_ok as [n0 H0]. unfold eval_conf, exec_module in *.
  rewrite H0 in *. unfold same_outcome in H.
  destruct (exec_body conf (exec_globals g)) as [ns|e] eqn:Hg; [|done].
  exists ns. split_and!; [done| |].
  - intros x Hx. cbn. apply H. by left.
  - intros x Hx. by apply (exec_body_frame conf (exec_globals g)).
Qed.

(** Reading one name of the module after a run on any globals. *)
Lemma eval_conf_lookup (g ns : namespace) (x : string) (v : value) :
  eval_conf g = Ok ns →
  bool_decide (x ∈ targets conf) = true →
  binding (eval_conf ∅) x = Some v →
  ns !! x = Some v.
Proof.
  intros Hrun Hx%bool_decide_eq_true_1 Hv.
  destruct (eval_conf_run g) as (ns' & Hrun' & Hin & _).
  rewrite Hrun in Hrun'. injection Hrun' as <-.
  by rewrite Hin.
Qed.

(** Closes a goal [ns !! "key" = Some v] from a run [eval_conf g = Ok ns]. *)
Ltac conf_lookup Hrun :=
  apply (eval_conf_lookup _ _ _ _ Hrun); vm_compute; reflexivity.

(** ** The literal bindings *)

(** C1: evaluating conf.py binds [project] to "AbyxDev's Blog",
    [copyright] to '2022, AbyxDev' and [author] to 'AbyxDev'. *)
Theorem conf_project_metadata (g : namespace) :
  ∃ ns, eval_conf g = Ok ns
    ∧ ns !! "project" = Some (VStr "AbyxDev's Blog")
    ∧ ns !! "copyright" = Some (VStr "2022, AbyxDev")
    ∧ ns !! "author" = Some (VStr "AbyxDev").
Proof.
  destruct (eval_conf_run g) as (ns & Hrun & _).
  exists ns. split_and!; [done|conf_lookup Hrun..].
Qed.

(** C2: after evaluating conf.py, [extensions] is the list of exactly the
    two strings 'sphinx.ext.intersphinx' and 'sphinxext.opengraph', in
    this order. *)
Theorem conf_extensions (g : namespace) :
  ∃ ns, eval_conf g = Ok ns
    ∧ ns !! "extensions"
      = Some (VList [VStr "sphinx.ext.intersphinx"; VStr "sphinxext.opengraph"]).
Proof.
  destruct (eval_conf_run g) as (ns & Hrun & _).
  exists ns. split; [done|conf_lookup Hrun].
Qed.

(** C5: after evaluating conf.py, [html_theme] is the string 'furo'. *)
Theorem conf_html_theme (g : namespace) :
  ∃ ns, eval_conf g = Ok ns ∧ ns !! "html_theme" = Some (VStr "furo").
Proof.
  destruct (eval_conf_run g) as (ns & Hrun & _).
  exists ns. split; [done|conf_lookup Hrun].
Qed.

(** C6: after evaluating conf.py, [templates_path] is the one-element list
    ['_templates'], [html_static_path] is the one-element list ['_static']
    and [html_favicon] is the string '_static/favicon.ico'. *)
Theorem conf_paths (g : namespace) :
  ∃ ns, eval_conf g = Ok ns
    ∧ ns !! "templates_path" = Some (VList [VStr "_templates"])
    ∧ ns !! "html_static_path" = Some (VList [VStr "_static"])
    ∧ ns !! "html_favicon" = Some (VStr "_static/favicon.ico").
Proof.
  destruct (eval_conf_run g) as (ns & Hrun & _).
  exists ns. split_and!; [done|conf_lookup Hrun..].
Qed.

(** C7: after evaluating conf.py, [rst_prolog] is exactly the text that
    defines the :python: code role, and [rst_epilog] is exactly the text
    with the '----' transition and the feedback sentence that links to
    https://abyx.dev/contact.  Both texts are given line by line. *)
Theorem conf_rst_snippets (g : namespace) :
  ∃ ns prolog epilog, eval_conf g = Ok ns
    ∧ ns !! "rst_prolog" = Some (VStr prolog)
    ∧ ns !! "rst_epilog" = Some (VStr epilog)
    ∧ prolog = unlines
        [ "";
          ".. role:: python(code)";
          "    :language: python";
          "    :class: highlight" ]
    ∧ epilog = unlines
        [ "";
          "";
          "----";
          "";
          "*If you have something to say about this page,";
          "feel free to* `let me know <https://abyx.dev/contact>`_!" ]
    ∧ contains (LF +:+ "----" +:+ LF) epilog = true
    ∧ contains "`let me know <https://abyx.dev/contact>`_" epilog = true.
Proof.
  destruct (eval_conf_run g) as (ns & Hrun & _).
  exists ns, rst_prolog_literal, rst_epilog_literal.
  split_and!;
    [done|conf_lookup Hrun|conf_lookup Hrun|reflexivity..].
Qed.

(** C8: after evaluating conf.py, [intersphinx_mapping] is the dict with
    the single key 'python', mapped to the pair
    ('https://docs.python.org/3', None); [exclude_patterns] is
    ['_build', 'Thumbs.db', '.DS_Store', 'README']; and the OpenGraph keys
    are [ogp_site_url] = 'https://blog.abyx.dev', [ogp_site_name] =
    "AbyxDev's Blog", [ogp_image] = '_static/Abyx.png', [ogp_image_alt] =
    'AbyxDev' and [ogp_type] = 'article'. *)
Theorem conf_remaining_keys (g : namespace) :
  ∃ ns items, eval_conf g = Ok ns
    ∧ ns !! "intersphinx_mapping" = Some (VDict items)
    ∧ items = [(VStr "python", VTuple [VStr "https://docs.python.org/3"; VNone])]
    ∧ dict_getitem items (VStr "python")
      = Some (VTuple [VStr "https://docs.python.org/3"; VNone])
    ∧ length items = 1
    ∧ ns !! "exclude_patterns"
      = Some (VList [VStr "_build"; VStr "Thumbs.db"; VStr ".DS_Store";
                     VStr "README"])
    ∧ ns !! "ogp_site_url" = Some (VStr "https://blog.abyx.dev")
    ∧ ns !! "ogp_site_name" = Some (VStr "AbyxDev's Blog")
    ∧ ns !! "ogp_image" = Some (VStr "_static/Abyx.png")
    ∧ ns !! "ogp_image_alt" = Some (VStr "AbyxDev")
    ∧ ns !! "ogp_type" = Some (VStr "article").
Proof.
  destruct (eval_conf_run g) as (ns & Hrun & _).
  exists ns, [(VStr "python", VTuple [VStr "https://docs.python.org/3"; VNone])].
  split_and!; [done|conf_lookup Hrun|reflexivity|reflexivity|reflexivity|conf_lookup Hrun..].
Qed.

(** ** Totality and determinism *)

(** C3: evaluating conf.py is total and never raises: on any globals the
    run ends with a namespace, and no exception is the outcome of any run.
    The bindings it produces are those of its eighteen names, listed here
    in file order: each of them is bound in the final namespace, and the
    names bound there are exactly these eighteen, [__builtins__] that
    [exec] provides, and the names of the starting globals. *)
Theorem conf_total (g : namespace) :
  (∃ ns, eval_conf g = Ok ns
     ∧ targets conf
       = [ "project"; "copyright"; "author"; "extensions";
           "intersphinx_mapping"; "templates_path"; "exclude_patterns";
           "rst_prolog"; "rst_epilog"; "html_theme"; "html_static_path";
           "html_title"; "html_favicon"; "ogp_site_url"; "ogp_site_name";
           "ogp_image"; "ogp_image_alt"; "ogp_type" ]
     ∧ length (targets conf) = 18
     ∧ Forall (λ x, is_Some (ns !! x)) (targets conf)
     ∧ dom ns = list_to_set (targets conf) ∪ {["__builtins__"]} ∪ dom g)
  ∧ ¬ ∃ e, eval_conf g = Raise e.
Proof.
  destruct (eval_conf_run g) as (ns & Hrun & Hin & Hout).
  assert (∀ x, x ∈ targets conf → is_Some (ns !! x)) as Hbound.
  { intros x Hx.
    apply (exec_body_binds conf (exec_globals g) ns x Hrun). by left. }
  split.
  - exists ns. split_and!; [done|reflexivity|reflexivity| |].
    + by apply Forall_forall.
    + apply set_eq. intros x.
      rewrite !elem_of_union, elem_of_list_to_set, elem_of_singleton,
        !elem_of_dom.
      destruct (decide (x ∈ targets conf)) as [Hx|Hx].
      * split; [by left; left|intros _; by apply Hbound].
      * rewrite (Hout x Hx), exec_globals_is_Some.
        split; [intros [?|?]; auto|intros [[?|?]|?]; auto].
        done.
  - intros [e He]. rewrite Hrun in He. discriminate.
Qed.

(** C4: evaluating conf.py is deterministic: whatever globals two
    evaluations start from, each binds every key of the module, and both
    bind it to the same value. *)
Theorem conf_deterministic (g1 g2 : namespace) (x : string) :
  x ∈ targets conf →
  ∃ v, binding (eval_conf g1) x = Some v ∧ binding (eval_conf g2) x = Some v.
Proof.
  intros Hx.
  destruct (eval_conf_run g1) as (n1 & Hrun1 & Hin1 & _).
  destruct (eval_conf_run g2) as (n2 & Hrun2 & Hin2 & _).
  rewrite Hrun1, Hrun2. cbn.
  destruct (exec_body_binds conf (exec_globals g1) n1 x Hrun1 (or_introl Hx))
    as [v Hv].
  exists v. split; [done|].
  by rewrite Hin2, <- Hin1.
Qed.

(** The same, on the empty globals and on globals that hold [__file__],
    for the last key of the module. *)
Lemma conf_deterministic_witness :
  "ogp_type" ∈ targets conf
  ∧ ∃ v, binding (eval_conf ∅) "ogp_type" = Some v
       ∧ binding (eval_conf {["__file__" := VStr "conf.py"]}) "ogp_type" = Some v.
Proof.
  assert (H : "ogp_type" ∈ targets conf).
  { apply (bool_decide_unpack _). vm_compute. exact I. }
  split; [exact H|].
  exact (conf_deterministic ∅ {["__file__" := VStr "conf.py"]} "ogp_type" H).
Defined.

(** ** Invariants of the configuration *)

(** C9: in the bindings of conf.py the keys [project], [html_title] and
    [ogp_site_name] are equal to one another, each being the string
    "AbyxDev's Blog". *)
Theorem conf_site_name_consistent (g : namespace) :
  ∃ ns, eval_conf g = Ok ns
    ∧ ns !! "project" = ns !! "html_title"
    ∧ ns !! "html_title" = ns !! "ogp_site_name"
    ∧ ns !! "project" = ns !! "ogp_site_name"
    ∧ ns !! "project" = Some (VStr "AbyxDev's Blog").
Proof.
  destruct (eval_conf_run g) as (ns & Hrun & _).
  assert (ns !! "project" = Some (VStr "AbyxDev's Blog")) as Hp
    by conf_lookup Hrun.
  assert (ns !! "html_title" = Some (VStr "AbyxDev's Blog")) as Ht
    by conf_lookup Hrun.
  assert (ns !! "ogp_site_name" = Some (VStr "AbyxDev's Blog")) as Ho
    by conf_lookup Hrun.
  exists ns. by rewrite Hp, Ht, Ho.
Qed.

(** C10: [html_static_path] lists the sole directory '_static', and every
    asset path of the configuration, [html_favicon] =
    '_static/favicon.ico' and [ogp_image] = '_static/Abyx.png', begins
    with that directory followed by '/'. *)
Theorem conf_assets_under_static (g : namespace) :
  ∃ ns, eval_conf g = Ok ns
    ∧ ns !! "html_static_path" = Some (VList [VStr "_static"])
    ∧ ns !! "html_favicon" = Some (VStr "_static/favicon.ico")
    ∧ ns !! "ogp_image" = Some (VStr "_static/Abyx.png")
    ∧ Forall (λ key, under_static_dir ns key = true) asset_keys.
Proof.
  destruct (eval_conf_run g) as (ns & Hrun & _).
  assert (ns !! "html_static_path" = Some (VList [VStr "_static"])) as Hs
    by conf_lookup Hrun.
  assert (ns !! "html_favicon" = Some (VStr "_static/favicon.ico")) as Hf
    by conf_lookup Hrun.
  assert (ns !! "ogp_image" = Some (VStr "_static/Abyx.png")) as Hi
    by conf_lookup Hrun.
  exists ns. split_and!; [done..|].
  unfold asset_keys, under_static_dir. rewrite Hs.
  repeat constructor; [rewrite Hf|rewrite Hi]; reflexivity.
Qed.

(** ** Dict items: keys, insertion and lookup *)

(** Two keys that compare equal are the same object, structurally. *)
Lemma key_eqb_eq : ∀ k1 k2 : value, key_eqb k1 k2 = true → k1 = k2.
Proof.
  fix IH 1.
  intros [|s1|l1|l1|d1|] [|s2|l2|l2|d2|]; cbn; try discriminate; try done.
  - intros H%bool_decide_eq_true_1. by subst.
  - revert l2. induction l1 as [|a l1 IHl]; intros [|b l2]; try discriminate.
    + done.
    + intros [Hab Hl]%andb_true_iff.
      apply IH in Hab. apply IHl in Hl. congruence.
Qed.

(** A hashable key compares equal to itself. *)
Lemma key_eqb_refl : ∀ k : value, hashable k = true → key_eqb k k = true.
Proof.
  fix IH 1.
  intros [|s|l|l|d|]; cbn; try discriminate; try done.
  - intros _. by apply bool_decide_eq_true_2.
  - induction l as [|a l IHl]; cbn; [done|].
    intros [Ha Hl]%andb_true_iff.
    apply andb_true_iff. split; [by apply IH|by apply IHl].
Qed.

Lemma dict_getitem_setitem_eq items k v :
  hashable k = true → dict_getitem (dict_setitem items k v) k = Some v.
Proof.
  intros Hk. induction items as [|[k0 v0] items IH]; cbn.
  - by rewrite (key_eqb_refl k Hk).
  - destruct (key_eqb k0 k) eqn:E; cbn; rewrite E; [done|apply IH].
Qed.

Lemma dict_getitem_setitem_ne items k v k' :
  k' ≠ k → dict_getitem (dict_setitem items k v) k' = dict_getitem items k'.
Proof.
  intros Hne. induction items as [|[k0 v0] items IH]; cbn.
  - destruct (key_eqb k k') eqn:E; [|done].
    apply key_eqb_eq in E. congruence.
  - destruct (key_eqb k0 k) eqn:E; cbn.
    + destruct (key_eqb k0 k') eqn:E'; [|done].
      apply key_eqb_eq in E, E'. congruence.
    + by rewrite IH.
Qed.

(** ** Closed modules that assign each name once *)

Section ClosedModules.

Implicit Types (body : list assign) (g ns : namespace) (x : string).

Lemma elem_of_targets body x :
  x ∈ targets body ↔ ∃ s, s ∈ body ∧ target s = x.
Proof.
  unfold targets. rewrite list_elem_of_In, in_map_iff.
  split; intros (s & H1 & H2); exists s; by rewrite ?list_elem_of_In in *.
Qed.

(** When no right-hand side reads the globals or raises, and no name is
    assigned twice, the run finishes, every statement's value is what its
    target is bound to at the end, and the other names are left alone. *)
Lemma exec_body_once body :
  closed_module body →
  NoDup (targets body) →
  Forall (λ s, ∃ v, rhs s ∅ = Ok v) body →
  ∀ g, ∃ ns, exec_body body g = Ok ns
    ∧ (∀ s v, s ∈ body → rhs s ∅ = Ok v → ns !! target s = Some v)
    ∧ (∀ x, x ∉ targets body → ns !! x = g !! x).
Proof.
  induction body as [|s body IH]; intros Hc Hn Ht g.
  - exists g. split_and!; [done| |done].
    intros s v Hs. by apply elem_of_nil in Hs.
  - apply Forall_cons in Hc as [Hs Hc]. apply Forall_cons in Ht as [[v Hv] Ht].
    cbn in Hn. apply NoDup_cons in Hn as [Hfresh Hn].
    destruct (IH Hc Hn Ht (<[target s:=v]> g)) as (ns & Hrun & Hin & Hout).
    exists ns. split_and!.
    + rewrite exec_body_cons. unfold exec_assign.
      rewrite (Hs g ∅), Hv. exact Hrun.
    + intros s' v' [->|Hs']%elem_of_cons Hv'.
      * rewrite (Hout _ Hfresh), lookup_insert_eq. congruence.
      * by apply Hin.
    + intros x [Hne Hx]%not_elem_of_cons.
      rewrite (Hout _ Hx). by apply lookup_insert_ne.
Qed.

(** Such a module binds the same names to the same values in whatever
    order its statements are written. *)
Lemma exec_body_once_perm body body' g :
  closed_module body →
  NoDup (targets body) →
  Forall (λ s, ∃ v, rhs s ∅ = Ok v) body →
  body ≡ₚ body' →
  exec_body body' g = exec_body body g.
Proof.
  intros Hc Hn Ht Hp.
  assert (targets body ≡ₚ targets body') as Hpt by by apply Permutation_map.
  assert (closed_module body') as Hc' by (unfold closed_module; by rewrite <- Hp).
  assert (NoDup (targets body')) as Hn' by by rewrite <- Hpt.
  assert (Forall (λ s, ∃ v, rhs s ∅ = Ok v) body') as Ht' by by rewrite <- Hp.
  destruct (exec_body_once body Hc Hn Ht g) as (ns & -> & Hin & Hout).
  destruct (exec_body_once body' Hc' Hn' Ht' g) as (ns' & -> & Hin' & Hout').
  f_equal. apply map_eq. intros x.
  destruct (decide (x ∈ targets body)) as [Hx|Hx].
  - apply elem_of_targets in Hx as (s & Hs & <-).
    destruct (proj1 (Forall_forall _ _) Ht s Hs) as [v Hv].
    rewrite (Hin s v Hs Hv). apply Hin'; [by rewrite <- Hp|done].
  - rewrite (Hout x Hx). apply Hout'. by rewrite <- Hpt.
Qed.

End ClosedModules.

(** ** Further facts about [conf.py] *)

Lemma conf_targets_NoDup : NoDup (targets conf).
Proof. apply (bool_decide_unpack _). vm_compute. exact I. Qed.

Lemma conf_rhs_total : Forall (λ s, ∃ v, rhs s ∅ = Ok v) conf.
Proof. unfold conf. repeat constructor; eexists; reflexivity. Qed.

(** The statements of the module, run on any namespace, lay over it what
    they bind when run on the empty one. *)
Lemma exec_body_conf_union :
  ∃ b : namespace, exec_body conf ∅ = Ok b
    ∧ dom b = list_to_set (targets conf)
    ∧ ∀ g, exec_body conf g = Ok (b ∪ g).
Proof.
  destruct (exec_body_once conf conf_closed conf_targets_NoDup
              conf_rhs_total ∅) as (b & Hb & Hin0 & Hout0).
  assert (∀ x, x ∈ targets conf ↔ is_Some (b !! x)) as Hdom.
  { intros x. split.
    - intros Hx. apply (exec_body_binds conf ∅ b x Hb). by left.
    - intros Hx. destruct (decide (x ∈ targets conf)) as [|Hn]; [done|].
      rewrite (Hout0 x Hn), lookup_empty in Hx. by destruct Hx. }
  exists b. split_and!; [done| |].
  - apply set_eq. intros x.
    by rewrite elem_of_list_to_set, elem_of_dom, Hdom.
  - intros g.
    destruct (exec_body_once conf conf_closed conf_targets_NoDup
                conf_rhs_total g) as (ns & -> & Hin & Hout).
    f_equal. apply map_eq. intros x.
    destruct (decide (x ∈ targets conf)) as [Hx|Hx].
    + apply elem_of_targets in Hx as (s & Hs & <-).
      destruct (proj1 (Forall_forall _ _) conf_rhs_total s Hs) as [v Hv].
      rewrite (Hin s v Hs Hv). symmetry.
      apply lookup_union_Some_l. by apply Hin0.
    + rewrite (Hout x Hx). symmetry. apply lookup_union_r.
      destruct (b !! x) as [v|] eqn:E; [|done].
      exfalso. apply Hx, Hdom. by eexists.
Qed.

(** Every run of [conf.py] lays those bindings over the globals that
    [exec] prepared. *)
Lemma eval_conf_union :
  ∃ b : namespace, dom b = list_to_set (targets conf)
    ∧ ∀ g, eval_conf g = Ok (b ∪ exec_globals g).
Proof.
  destruct exec_body_conf_union as (b & _ & Hdom & Hall).
  exists b. split; [done|]. intros g. apply Hall.
Qed.

(** ** What a caller of [conf.py] can rely on *)

(** X1: a name that conf.py does not assign, other than [__builtins__],
    keeps after the run exactly what the caller's globals held for it: its
    value if it was bound, nothing if it was not.  [__builtins__] is bound
    after every run: to the caller's object when the caller bound it, and
    otherwise to the builtins dictionary that [exec] provides. *)
Theorem conf_keeps_other_names (g : namespace) (x : string) :
  x ∉ targets conf →
  x ≠ "__builtins__" →
  ∃ ns, eval_conf g = Ok ns
    ∧ ns !! x = g !! x
    ∧ ns !! "__builtins__" = Some (default VBuiltins (g !! "__builtins__")).
Proof.
  intros Hx Hb. destruct (eval_conf_run g) as (ns & Hrun & _ & Hout).
  exists ns. split_and!; [done| |].
  - rewrite (Hout x Hx). by apply exec_globals_other.
  - rewrite Hout; [apply exec_globals_builtins|].
    apply (bool_decide_unpack _). vm_compute. exact I.
Qed.

(** X1 on globals that hold [tags] and no [__builtins__]. *)
Lemma conf_keeps_other_names_witness :
  ("tags" ∉ targets conf)
  ∧ "tags" ≠ "__builtins__"
  ∧ ∃ ns, eval_conf {["tags" := VStr "html"]} = Ok ns
       ∧ ns !! "tags" = ({["tags" := VStr "html"]} : namespace) !! "tags"
       ∧ ns !! "__builtins__"
         = Some (default VBuiltins
                   (({["tags" := VStr "html"]} : namespace) !! "__builtins__")).
Proof.
  assert (H1 : "tags" ∉ targets conf).
  { apply (bool_decide_unpack _). vm_compute. exact I. }
  assert (H2 : "tags" ≠ "__builtins__") by discriminate.
  split; [exact H1|]. split; [exact H2|].
  exact (conf_keeps_other_names {["tags" := VStr "html"]} "tags" H1 H2).
Defined.

(** X2: evaluating conf.py again on the namespace a first evaluation left
    changes nothing: the second run ends with the same namespace. *)
Theorem conf_idempotent (g : namespace) :
  eval_conf g ≫= eval_conf = eval_conf g.
Proof.
  destruct eval_conf_union as (b & _ & Hb).
  rewrite (Hb g).
  change (eval_conf (b ∪ exec_globals g) = Ok (b ∪ exec_globals g)).
  rewrite (Hb (b ∪ exec_globals g)).
  rewrite (exec_globals_prepared (b ∪ exec_globals g)).
  - by rewrite (assoc_L (∪)), (idemp_L (∪)).
  - apply lookup_union_is_Some. right.
    rewrite exec_globals_builtins. by eexists.
Qed.

(** X3: the statements of conf.py can be written in any order: every
    reordering of the module ends with the same namespace as conf.py. *)
Theorem conf_order_irrelevant (g : namespace) (body' : list assign) :
  conf ≡ₚ body' →
  exec_module body' g = eval_conf g.
Proof.
  intros Hp. unfold eval_conf, exec_module.
  by apply exec_body_once_perm;
    [apply conf_closed|apply conf_targets_NoDup|apply conf_rhs_total|].
Qed.

(** X3 on the module read from its last statement to its first. *)
Lemma conf_order_irrelevant_witness :
  conf ≡ₚ reverse conf ∧ exec_module (reverse conf) ∅ = eval_conf ∅.
Proof.
  assert (H : conf ≡ₚ reverse conf).
  { symmetry. apply reverse_Permutation. }
  split; [exact H|].
  exact (conf_order_irrelevant ∅ (reverse conf) H).
Defined.

(** X4: no statement of conf.py is overwritten by a later one: the value
    of each statement's right-hand side is what its target is bound to
    when the run is over. *)
Theorem conf_statement_value_final (g : namespace) (s : assign) :
  s ∈ conf →
  ∃ v, rhs s g = Ok v ∧ binding (eval_conf g) (target s) = Some v.
Proof.
  intros Hs.
  destruct (proj1 (Forall_forall _ _) conf_rhs_total s Hs) as [v Hv].
  destruct (exec_body_once conf conf_closed conf_targets_NoDup
              conf_rhs_total (exec_globals g)) as (ns & Hrun & Hin & _).
  exists v. split.
  - rewrite <- Hv. apply (proj1 (Forall_forall _ _) conf_closed s Hs).
  - unfold eval_conf, exec_module. rewrite Hrun. cbn. by apply Hin.
Qed.

(** X4 on the statement [html_theme = 'furo']. *)
Lemma conf_statement_value_final_witness :
  ("html_theme" ::= e_str "furo") ∈ conf
  ∧ ∃ v, rhs ("html_theme" ::= e_str "furo") ∅ = Ok v
       ∧ binding (eval_conf ∅) (target ("html_theme" ::= e_str "furo")) = Some v.
Proof.
  assert (H : ("html_theme" ::= e_str "furo") ∈ conf).
  { unfold conf. do 9 apply list_elem_of_further. apply list_elem_of_here. }
  split; [exact H|].
  exact (conf_statement_value_final ∅ ("html_theme" ::= e_str "furo") H).
Defined.

(** X5: conf.py lays a fixed set of eighteen bindings over the globals of
    the run: there is one namespace [b], with exactly the names of the
    module as keys and so without [__builtins__], such that every run on
    globals [g] ends with [b] where [b] binds a name and elsewhere with
    [g] as [exec] prepared it, that is [g] with [__builtins__] bound to
    the builtins dictionary when [g] did not bind it. *)
Theorem conf_overlays_globals :
  ∃ b : namespace,
    size b = 18
    ∧ dom b = list_to_set (targets conf)
    ∧ b !! "__builtins__" = None
    ∧ ∀ g, eval_conf g = Ok (b ∪ exec_globals g).
Proof.
  destruct exec_body_conf_union as (b & Hb & Hdom & Hall).
  exists b. split_and!; [|done| |intros g; apply Hall].
  - assert (Ok (size b) = size <$> exec_body conf ∅) as Hsz by by rewrite Hb.
    vm_compute in Hsz. by injection Hsz.
  - apply not_elem_of_dom. rewrite Hdom.
    apply (bool_decide_unpack _). vm_compute. exact I.
Qed.

(** X6: in [intersphinx_mapping], any key other than 'python' is missing:
    looking it up finds nothing. *)
Theorem conf_intersphinx_missing_key (g : namespace) (k : value) :
  k ≠ VStr "python" →
  ∃ ns items, eval_conf g = Ok ns
    ∧ ns !! "intersphinx_mapping" = Some (VDict items)
    ∧ dict_getitem items k = None.
Proof.
  intros Hk. destruct (eval_conf_run g) as (ns & Hrun & _).
  exists ns, [(VStr "python", VTuple [VStr "https://docs.python.org/3"; VNone])].
  split_and!; [done|conf_lookup Hrun|].
  cbn [dict_getitem]. destruct (key_eqb _ k) eqn:E; [|done].
  apply key_eqb_eq in E. congruence.
Qed.

(** X6 on the key [None]. *)
Lemma conf_intersphinx_missing_key_witness :
  VNone ≠ VStr "python"
  ∧ ∃ ns items, eval_conf ∅ = Ok ns
      ∧ ns !! "intersphinx_mapping" = Some (VDict items)
      ∧ dict_getitem items VNone = None.
Proof.
  assert (H : VNone ≠ VStr "python") by discriminate.
  split; [exact H|].
  exact (conf_intersphinx_missing_key ∅ VNone H).
Defined.

(** X7: storing an item under a hashable key and looking that key up gives
    the stored value back, and the store changes what no other key looks
    up. *)
Theorem dict_setitem_getitem (items : list (value * value)) (k v k' : value) :
  hashable k = true →
  k' ≠ k →
  dict_getitem (dict_setitem items k v) k = Some v
  ∧ dict_getitem (dict_setitem items k v) k' = dict_getitem items k'.
Proof.
  intros Hk Hne. split.
  - by apply dict_getitem_setitem_eq.
  - by apply dict_getitem_setitem_ne.
Qed.

(** X7 on the item of [intersphinx_mapping], stored a second time. *)
Lemma dict_setitem_getitem_witness :
  hashable (VStr "python") = true
  ∧ VStr "rust" ≠ VStr "python"
  ∧ dict_getitem
      (dict_setitem [(VStr "python", VNone)] (VStr "python") (VStr "inv"))
      (VStr "python") = Some (VStr "inv")
  ∧ dict_getitem
      (dict_setitem [(VStr "python", VNone)] (VStr "python") (VStr "inv"))
      (VStr "rust") = dict_getitem [(VStr "python", VNone)] (VStr "rust").
Proof.
  assert (H1 : hashable (VStr "python") = true) by reflexivity.
  assert (H2 : VStr "rust" ≠ VStr "python") by discriminate.
  split; [exact H1|]. split; [exact H2|].
  exact (dict_setitem_getitem [(VStr "python", VNone)] (VStr "python")
           (VStr "inv") (VStr "rust") H1 H2).
Defined.
